(** * AI Healing Pipeline agent: a shallow embedding of [src/agent/main.py]

    The program is a FastAPI application with four routes.  The embedding
    follows the source top to bottom: the JSON values that travel over HTTP,
    the two pydantic models with their field declarations, the logger
    configured at module level, the four [async def] handlers, and the thin
    layer of the web framework that validates the request body before the
    handler runs and turns the handler's outcome into an HTTP response.

    Python floats are binary64 values ([PrimFloat.float]), Python ints are
    [Z], dicts with string keys are [gmap string _]. *)

From Stdlib Require Import ZArith String Ascii List Bool Lia.
From Stdlib Require Import Floats.PrimFloat.
From stdpp Require Import base option gmap strings.

Local Open Scope string_scope.
Local Open Scope list_scope.
#[local] Set Warnings "-inexact-float,-register-all".

(** ** JSON values

    What [json.loads] hands to the validation layer and what a handler's
    return value is serialised to.  Integer literals become Python ints,
    other numbers become floats, objects become dicts. *)

Inductive json : Type :=
  | JNull
  | JBool (b : bool)
  | JInt (n : Z)
  | JFloat (f : float)
  | JStr (s : string)
  | JArr (l : list json)
  | JObj (m : gmap string json).

(** ** [datetime.utcnow().isoformat()]

    The clock is an input of every handler that reads it.  A naive UTC
    datetime prints as [YYYY-MM-DDTHH:MM:SS], followed by [.ffffff] when the
    microsecond field is not zero. *)

Record datetime : Type := mk_datetime {
  year : nat;
  month : nat;
  day : nat;
  hour : nat;
  minute : nat;
  second : nat;
  microsecond : nat
}.

Definition digit (n : nat) : ascii := ascii_of_nat (48 + n mod 10).

Fixpoint zero_padded (width n : nat) (acc : string) : string :=
  match width with
  | O => acc
  | S w => zero_padded w (n / 10) (String (digit n) acc)
  end.

Definition isoformat (d : datetime) : string :=
  zero_padded 4 (year d) "" +:+ "-" +:+ zero_padded 2 (month d) "" +:+ "-" +:+
  zero_padded 2 (day d) "" +:+ "T" +:+ zero_padded 2 (hour d) "" +:+ ":" +:+
  zero_padded 2 (minute d) "" +:+ ":" +:+ zero_padded 2 (second d) "" +:+
  (if Nat.eqb (microsecond d) 0 then ""
   else "." +:+ zero_padded 6 (microsecond d) "").

(** ** Validation errors and exceptions *)

(** One entry of pydantic's error list. *)
Record ErrorDetails : Type := mk_error {
  err_type : string;
  err_loc : list string;
  err_msg : string;
  err_input : json
}.

Definition ErrorDetails_to_json (e : ErrorDetails) : json :=
  JObj (<["type" := JStr (err_type e)]>
       (<["loc" := JArr (map JStr (err_loc e))]>
       (<["msg" := JStr (err_msg e)]>
       (<["input" := err_input e]> ∅)))).

(** The exceptions ([Exception] subclasses) that occur in the program:
    pydantic's [ValidationError], FastAPI's [HTTPException], and any other
    exception, given by its class name and its arguments. *)
Inductive PyException : Type :=
  | ValidationError (title : string) (errors : list ErrorDetails)
  | HTTPException (status_code : Z) (detail : string)
  | OtherException (class_name : string) (args : string).

(** ** Logging

    [logging.basicConfig(level=logging.INFO)]: the module's logger inherits
    the root level, so a record below INFO is dropped.  The world a request
    runs in is the list of records emitted so far; the application keeps no
    other state. *)

Record LogRecord : Type := mk_log {
  levelno : Z;
  log_message : string
}.

Definition DEBUG : Z := 10.
Definition INFO : Z := 20.
Definition ERROR : Z := 40.

Definition logger_level : Z := INFO.

(** ** Handlers as computations

    A handler runs on the log, may append to it, and either returns a value
    or raises. *)

Definition M (A : Type) : Type :=
  list LogRecord -> (PyException + A) * list LogRecord.

Definition ret {A : Type} (a : A) : M A := fun st => (inr a, st).

Definition raise {A : Type} (e : PyException) : M A := fun st => (inl e, st).

Definition bind {A B : Type} (m : M A) (k : A -> M B) : M B :=
  fun st =>
    match m st with
    | (inl e, st') => (inl e, st')
    | (inr a, st') => k a st'
    end.

(** [try: body except Exception as e: handler e] *)
Definition try_except {A : Type} (body : M A) (handler : PyException -> M A) : M A :=
  fun st =>
    match body st with
    | (inl e, st') => handler e st'
    | (inr a, st') => (inr a, st')
    end.

Notation "'do' x <~ m ; k" := (bind m (fun x => k))
  (at level 10, x name, m at level 100, k at level 200).

Definition logger_log (level : Z) (msg : string) : M unit :=
  fun st =>
    (inr tt,
     if (logger_level <=? level)%Z
     then st ++ [{| levelno := level; log_message := msg |}]
     else st).

Definition logger_debug : string -> M unit := logger_log DEBUG.
Definition logger_info : string -> M unit := logger_log INFO.
(** [exc_info=True] attaches the traceback to the record; the text is the same. *)
Definition logger_error : string -> M unit := logger_log ERROR.

(** ** The pydantic models *)

Record PipelineFailure : Type := mk_PipelineFailure {
  stage : string;
  error_message : string;
  logs : string;
  timestamp : string;
  metadata : option (gmap string json)
}.

Record HealingResult : Type := mk_HealingResult {
  success : bool;
  fix_applied : option string;
  confidence : float;
  iterations : Z;
  message : string
}.

(** A field declared [str = Field(...)]: required, and only a JSON string is
    a string (numbers are not coerced).  No length constraint is declared. *)
Definition required_str (body : gmap string json) (key : string)
  : list ErrorDetails + string :=
  match body !! key with
  | None =>
      inl [mk_error "missing" ["body"; key] "Field required" (JObj body)]
  | Some (JStr s) => inr s
  | Some v =>
      inl [mk_error "string_type" ["body"; key] "Input should be a valid string" v]
  end.

(** A field declared [Optional[Dict[str, Any]] = Field(None, ...)]: may be
    absent or null, otherwise an object; the values are not inspected. *)
Definition optional_dict (body : gmap string json) (key : string)
  : list ErrorDetails + option (gmap string json) :=
  match body !! key with
  | None => inr None
  | Some JNull => inr None
  | Some (JObj d) => inr (Some d)
  | Some v =>
      inl [mk_error "dict_type" ["body"; key] "Input should be a valid dictionary" v]
  end.

Definition errors_of {A : Type} (r : list ErrorDetails + A) : list ErrorDetails :=
  match r with
  | inl es => es
  | inr _ => []
  end.

(** Validation of a request body against [PipelineFailure].  Every field is
    checked and the errors are collected in declaration order; keys that the
    model does not declare are ignored.  A [null] body counts as no body, any
    other value that is not an object has no fields to take. *)
Definition PipelineFailure_validate (body : json)
  : list ErrorDetails + PipelineFailure :=
  match body with
  | JObj m =>
      let v_stage := required_str m "stage" in
      let v_error_message := required_str m "error_message" in
      let v_logs := required_str m "logs" in
      let v_timestamp := required_str m "timestamp" in
      let v_metadata := optional_dict m "metadata" in
      match v_stage, v_error_message, v_logs, v_timestamp, v_metadata with
      | inr s, inr e, inr l, inr t, inr md => inr (mk_PipelineFailure s e l t md)
      | _, _, _, _, _ =>
          inl (errors_of v_stage ++ errors_of v_error_message ++ errors_of v_logs
               ++ errors_of v_timestamp ++ errors_of v_metadata)
      end
  | JNull => inl [mk_error "missing" ["body"] "Field required" JNull]
  | v =>
      inl [mk_error "model_attributes_type" ["body"]
             "Input should be a valid dictionary or object to extract fields from" v]
  end.

(** [confidence: float = Field(..., ge=0.0, le=1.0)]: the constraint is
    violated by a value that compares above the upper bound or below the
    lower bound. *)
Definition check_confidence (c : float) : list ErrorDetails :=
  if (1 <? c)%float then
    [mk_error "less_than_equal" ["confidence"]
       "Input should be less than or equal to 1" (JFloat c)]
  else if (c <? 0)%float then
    [mk_error "greater_than_equal" ["confidence"]
       "Input should be greater than or equal to 0" (JFloat c)]
  else [].

(** [iterations: int = Field(..., ge=0)] *)
Definition check_iterations (n : Z) : list ErrorDetails :=
  if (n <? 0)%Z then
    [mk_error "greater_than_equal" ["iterations"]
       "Input should be greater than or equal to 0" (JInt n)]
  else [].

(** [HealingResult(success=..., fix_applied=..., confidence=..., iterations=...,
    message=...)]: the constructor validates its arguments and raises
    [ValidationError] when a field constraint is violated. *)
Definition HealingResult_init (success : bool) (fix_applied : option string)
    (confidence : float) (iterations : Z) (message : string) : M HealingResult :=
  match check_confidence confidence ++ check_iterations iterations with
  | [] => ret (mk_HealingResult success fix_applied confidence iterations message)
  | errs => raise (ValidationError "HealingResult" errs)
  end.

Definition option_to_json {A : Type} (f : A -> json) (o : option A) : json :=
  match o with
  | Some a => f a
  | None => JNull
  end.

Definition PipelineFailure_model_dump (p : PipelineFailure) : json :=
  JObj (<["stage" := JStr (stage p)]>
       (<["error_message" := JStr (error_message p)]>
       (<["logs" := JStr (logs p)]>
       (<["timestamp" := JStr (timestamp p)]>
       (<["metadata" := option_to_json JObj (metadata p)]> ∅))))).

Definition HealingResult_model_dump (r : HealingResult) : json :=
  JObj (<["success" := JBool (success r)]>
       (<["fix_applied" := option_to_json JStr (fix_applied r)]>
       (<["confidence" := JFloat (confidence r)]>
       (<["iterations" := JInt (iterations r)]>
       (<["message" := JStr (message r)]> ∅))))).

(** ** HTTP responses *)

Inductive Content : Type :=
  | JSONContent (j : json)
  | TextContent (s : string).

Record Response : Type := mk_Response {
  status : Z;
  content : Content
}.

(** The framework's answer to a request body that fails validation: the
    handler is not called. *)
Definition request_validation_error_response (errs : list ErrorDetails) : Response :=
  mk_Response 422 (JSONContent (JObj {["detail" := JArr (map ErrorDetails_to_json errs)]})).

(** The framework's answer to an exception that leaves a handler: an
    [HTTPException] carries its own status and detail, anything else is the
    server's plain-text 500. *)
Definition exception_response (e : PyException) : Response :=
  match e with
  | HTTPException code detail =>
      mk_Response code (JSONContent (JObj {["detail" := JStr detail]}))
  | _ => mk_Response 500 (TextContent "Internal Server Error")
  end.

Definition respond (outcome : PyException + json) : Response :=
  match outcome with
  | inr j => mk_Response 200 (JSONContent j)
  | inl e => exception_response e
  end.

(** ** Route handlers *)

(** [@app.get("/")] *)
Definition root (now : datetime) : M json :=
  ret (JObj (<["service" := JStr "AI Healing Pipeline Agent"]>
            (<["status" := JStr "operational"]>
            (<["version" := JStr "1.0.0"]>
            (<["timestamp" := JStr (isoformat now)]> ∅))))).

(** [@app.get("/health")] *)
Definition health_check (now : datetime) : M json :=
  ret (JObj (<["status" := JStr "healthy"]>
            (<["timestamp" := JStr (isoformat now)]> ∅))).

(** [@app.get("/metrics")] *)
Definition get_metrics (now : datetime) : M json :=
  ret (JObj (<["total_healings" := JInt 0]>
            (<["success_rate" := JFloat 0.0]>
            (<["average_resolution_time" := JFloat 0.0]>
            (<["timestamp" := JStr (isoformat now)]> ∅))))).

Definition get_endpoint (handler : M json) (st : list LogRecord)
  : Response * list LogRecord :=
  let (outcome, st') := handler st in (respond outcome, st').

(** A [POST] route with a [PipelineFailure] body and
    [response_model=HealingResult]: the body is validated first; only a
    validated model is passed to the handler, whose result is serialised
    through the response model. *)
Definition post_endpoint (handler : PipelineFailure -> M HealingResult)
    (body : json) (st : list LogRecord) : Response * list LogRecord :=
  match PipelineFailure_validate body with
  | inl errs => (request_validation_error_response errs, st)
  | inr failure =>
      let (outcome, st') := handler failure st in
      (respond (sum_map id HealingResult_model_dump outcome), st')
  end.

Inductive Request : Type :=
  | GET_root
  | GET_health
  | GET_metrics
  | POST_heal (body : json).

Section Heal.

(** The texts that Python and the libraries produce and the program only
    interpolates: [str(e)] of an exception and the [repr] of a dumped model
    inside an f-string. *)
Variable py_str : PyException -> string.
Variable py_repr : json -> string.

(** The body of the [try] block. *)
Definition heal_try (failure : PipelineFailure) : M HealingResult :=
  do result <~ HealingResult_init
                 true
                 (Some "Placeholder - Week 2 will implement AI agent")
                 0.95
                 1
                 ("Acknowledged failure in " +:+ stage failure
                    +:+ ". Ready for AI implementation.") ;
  do _ <~ logger_info ("Healing result: " +:+ py_repr (HealingResult_model_dump result)) ;
  ret result.

(** The [except Exception as e] clause. *)
Definition heal_except (e : PyException) : M HealingResult :=
  do _ <~ logger_error ("Error during healing: " +:+ py_str e) ;
  raise (HTTPException 500 ("Internal error: " +:+ py_str e)).

(** The handler's frame: the two log calls, then [try]/[except] around a
    block. *)
Definition heal_pipeline_with (try_block : PipelineFailure -> M HealingResult)
    (failure : PipelineFailure) : M HealingResult :=
  do _ <~ logger_info ("Received healing request for stage: " +:+ stage failure) ;
  do _ <~ logger_debug ("Failure details: " +:+ py_repr (PipelineFailure_model_dump failure)) ;
  try_except (try_block failure) heal_except.

(** [@app.post("/heal", response_model=HealingResult)] *)
Definition heal_pipeline : PipelineFailure -> M HealingResult :=
  heal_pipeline_with heal_try.

Definition post_heal : json -> list LogRecord -> Response * list LogRecord :=
  post_endpoint heal_pipeline.

(** ** The application: one request at a time *)

Definition handle (now : datetime) (req : Request) (st : list LogRecord)
  : Response * list LogRecord :=
  match req with
  | GET_root => get_endpoint (root now) st
  | GET_health => get_endpoint (health_check now) st
  | GET_metrics => get_endpoint (get_metrics now) st
  | POST_heal body => post_heal body st
  end.

(** The log after a history of requests, each with the time it arrived at. *)
Fixpoint served (history : list (datetime * Request)) (st : list LogRecord)
  : list LogRecord :=
  match history with
  | [] => st
  | (now, req) :: rest => served rest (snd (handle now req st))
  end.

End Heal.

(** ** Vocabulary of the statements *)


(** The value a body carries under a key, if any. *)
Definition body_field (body : json) (key : string) : option json :=
  match body with
  | JObj m => m !! key
  | _ => None
  end.

Definition is_JStr (v : option json) : bool :=
  match v with
  | Some (JStr _) => true
  | _ => false
  end.

Definition is_optional_dict (v : option json) : bool :=
  match v with
  | None | Some JNull | Some (JObj _) => true
  | _ => false
  end.


Definition contains (s sub : string) : Prop :=
  exists pre post, s = pre +:+ sub +:+ post.

(** Renderings to run the application on concrete inputs. *)
Definition sample_str (e : PyException) : string :=
  match e with
  | ValidationError title errs => "validation error for " +:+ title
  | HTTPException _ detail => detail
  | OtherException _ args => args
  end.

Definition sample_repr (j : json) : string := "{...}".

Definition sample_payload (stage timestamp : string) : json :=
  JObj (<["stage" := JStr stage]>
       (<["error_message" := JStr "AssertionError"]>
       (<["logs" := JStr "trace"]>
       (<["timestamp" := JStr timestamp]> ∅)))).

Definition sample_failure (stage timestamp : string) : PipelineFailure :=
  mk_PipelineFailure stage "AssertionError" "trace" timestamp None.

(** The same stage as [sample_payload "test" _] with every other field
    different. *)
Definition other_payload : json :=
  JObj (<["stage" := JStr "test"]>
       (<["error_message" := JStr "npm ERR! code ERESOLVE"]>
       (<["logs" := JStr ""]>
       (<["timestamp" := JStr "yesterday"]>
       (<["metadata" := JObj {["branch" := JStr "main"]}]> ∅))))).

Definition other_failure : PipelineFailure :=
  mk_PipelineFailure "test" "npm ERR! code ERESOLVE" "" "yesterday"
    (Some {["branch" := JStr "main"]}).

(** [{"stage": "test", "error_message": "x"}]: no [logs], no [timestamp]. *)
Definition incomplete_payload : json :=
  JObj (<["stage" := JStr "test"]> (<["error_message" := JStr "x"]> ∅)).

Definition noon : datetime := mk_datetime 2024 1 27 12 0 0 0.

(** A [try] block that asks the response model for a confidence of 1.5. *)
Definition overconfident_try (failure : PipelineFailure) : M HealingResult :=
  HealingResult_init true None 1.5 1 (stage failure).

(** The verdict the [try] block builds for a stage. *)
Definition placeholder_verdict (stage : string) : HealingResult :=
  mk_HealingResult true (Some "Placeholder - Week 2 will implement AI agent")
    0.95 1 ("Acknowledged failure in " +:+ stage +:+ ". Ready for AI implementation.").

(** ** Startup and shutdown events *)

(** [@app.on_event("startup")] *)
Definition startup_event : M unit :=
  do _ <~ logger_info "ðŸš€ AI Healing Agent starting up..." ;
  logger_info "API documentation available at /docs".

(** [@app.on_event("shutdown")] *)
Definition shutdown_event : M unit :=
  logger_info "ðŸ‘‹ AI Healing Agent shutting down...".

(** The log of one life of the application: the startup event, a history of
    requests, the shutdown event. *)
Definition application_log (py_str : PyException -> string) (py_repr : json -> string)
    (history : list (datetime * Request)) (st : list LogRecord) : list LogRecord :=
  snd (shutdown_event (served py_str py_repr history (snd (startup_event st)))).

(** ** More vocabulary *)

(** The fields [PipelineFailure] declares, each with the test its value has
    to pass and the error type of a value that fails it. *)
Definition declared_fields : list (string * (option json -> bool) * string) :=
  [("stage", is_JStr, "string_type");
   ("error_message", is_JStr, "string_type");
   ("logs", is_JStr, "string_type");
   ("timestamp", is_JStr, "string_type");
   ("metadata", is_optional_dict, "dict_type")].

Definition declared_keys : list string :=
  map (fun d : string * (option json -> bool) * string => fst (fst d)) declared_fields.

(** A body with every declared field in order. *)
Definition accepted (body : json) : bool :=
  forallb (fun d : string * (option json -> bool) * string =>
             snd (fst d) (body_field body (fst (fst d))))
    declared_fields.

(** The error type and location expected for every declared field that is
    not in order, in declaration order. *)
Definition offences (body : json) : list (string * list string) :=
  flat_map
    (fun d : string * (option json -> bool) * string =>
       let key := fst (fst d) in
       if snd (fst d) (body_field body key) then []
       else [(match body_field body key with
              | None => "missing"
              | Some _ => snd d
              end, ["body"; key])])
    declared_fields.

Definition is_accepted_heal (req : Request) : bool :=
  match req with
  | POST_heal body => accepted body
  | _ => false
  end.

(** How many requests of a history are [POST /heal] with an accepted body. *)
Definition accepted_heals (history : list (datetime * Request)) : nat :=
  length (List.filter (fun item => is_accepted_heal (snd item)) history).

(** The two records an accepted [POST /heal] writes. *)
Definition heal_records (py_repr : json -> string) (stage : string) : list LogRecord :=
  [mk_log INFO ("Received healing request for stage: " +:+ stage);
   mk_log INFO ("Healing result: " +:+
                  py_repr (HealingResult_model_dump (placeholder_verdict stage)))].

(** A body with a key the model does not declare, and a [try] block that
    returns a verdict of its own. *)
Definition annotated_payload : json :=
  JObj (<["pipeline_id" := JInt 7]>
       (<["stage" := JStr "test"]>
       (<["error_message" := JStr "AssertionError"]>
       (<["logs" := JStr "trace"]>
       (<["timestamp" := JStr "2024-01-27T12:00:00Z"]> ∅))))).



(** * Properties *)

(** ** The monad and the logger *)

Lemma bind_ret {A B : Type} (a : A) (k : A -> M B) (st : list LogRecord) :
  bind (ret a) k st = k a st.
Proof. reflexivity. Qed.

Lemma bind_raise {A B : Type} (e : PyException) (k : A -> M B) (st : list LogRecord) :
  bind (raise e) k st = (inl e, st).
Proof. reflexivity. Qed.

Lemma bind_returns {A B : Type} (m : M A) (k : A -> M B) st a st' :
  m st = (inr a, st') -> bind m k st = k a st'.
Proof. intros H. unfold bind. now rewrite H. Qed.

Lemma try_except_raises {A : Type} (body : M A) handler st e st' :
  body st = (inl e, st') -> try_except body handler st = handler e st'.
Proof. intros H. unfold try_except. now rewrite H. Qed.


Lemma logger_info_emits msg st :
  logger_info msg st = (inr tt, st ++ [mk_log INFO msg]).
Proof. reflexivity. Qed.

Lemma logger_error_emits msg st :
  logger_error msg st = (inr tt, st ++ [mk_log ERROR msg]).
Proof. reflexivity. Qed.

Lemma logger_debug_dropped msg st : logger_debug msg st = (inr tt, st).
Proof. reflexivity. Qed.

(** ** The response model's constructor *)

Lemma check_confidence_constant : check_confidence 0.95 = [].
Proof. reflexivity. Qed.




Lemma HealingResult_init_accepts s f c n msg st :
  check_confidence c = [] -> check_iterations n = [] ->
  HealingResult_init s f c n msg st = (inr (mk_HealingResult s f c n msg), st).
Proof. intros Hc Hn. unfold HealingResult_init. now rewrite Hc, Hn. Qed.


(** ** Request validation *)

Lemma required_str_accepts m key s :
  m !! key = Some (JStr s) -> required_str m key = inr s.
Proof. intros H. unfold required_str. now rewrite H. Qed.

Lemma required_str_inr m key s :
  required_str m key = inr s -> m !! key = Some (JStr s).
Proof.
  unfold required_str. destruct (m !! key) as [[]|]; intros H; congruence.
Qed.


Lemma optional_dict_accepts m key :
  is_optional_dict (m !! key) = true -> exists md, optional_dict m key = inr md.
Proof.
  unfold optional_dict, is_optional_dict.
  destruct (m !! key) as [[]|]; intros H; try discriminate; eauto.
Qed.

Lemma validate_accepts m s e l t :
  m !! "stage" = Some (JStr s) ->
  m !! "error_message" = Some (JStr e) ->
  m !! "logs" = Some (JStr l) ->
  m !! "timestamp" = Some (JStr t) ->
  is_optional_dict (m !! "metadata") = true ->
  exists md, PipelineFailure_validate (JObj m) = inr (mk_PipelineFailure s e l t md).
Proof.
  intros Hs He Hl Ht Hmd.
  destruct (optional_dict_accepts _ _ Hmd) as [md Hmd'].
  exists md. unfold PipelineFailure_validate.
  rewrite (required_str_accepts _ _ _ Hs), (required_str_accepts _ _ _ He),
    (required_str_accepts _ _ _ Hl), (required_str_accepts _ _ _ Ht), Hmd'.
  reflexivity.
Qed.


Lemma validate_inr_fields body p :
  PipelineFailure_validate body = inr p ->
  body_field body "stage" = Some (JStr (stage p)) /\
  body_field body "error_message" = Some (JStr (error_message p)) /\
  body_field body "logs" = Some (JStr (logs p)) /\
  body_field body "timestamp" = Some (JStr (timestamp p)) /\
  is_optional_dict (body_field body "metadata") = true.
Proof.
  destruct body as [| | | | | |m]; try discriminate.
  unfold PipelineFailure_validate.
  destruct (required_str m "stage") as [es1|s] eqn:Hs;
    destruct (required_str m "error_message") as [es2|e] eqn:He;
    destruct (required_str m "logs") as [es3|l] eqn:Hl;
    destruct (required_str m "timestamp") as [es4|t] eqn:Ht;
    destruct (optional_dict m "metadata") as [es5|md] eqn:Hmd;
    try discriminate.
  intros [= <-]. simpl.
  repeat split; try now apply required_str_inr.
  revert Hmd. unfold optional_dict, is_optional_dict.
  destruct (m !! "metadata") as [[]|]; congruence.
Qed.

(** ** Serialised models *)

Lemma HealingResult_model_dump_fields r :
  exists obj,
    HealingResult_model_dump r = JObj obj /\
    obj !! "success" = Some (JBool (success r)) /\
    obj !! "fix_applied" = Some (option_to_json JStr (fix_applied r)) /\
    obj !! "confidence" = Some (JFloat (confidence r)) /\
    obj !! "iterations" = Some (JInt (iterations r)) /\
    obj !! "message" = Some (JStr (message r)).
Proof.
  eexists. split; [reflexivity |].
  repeat split; by simplify_map_eq.
Qed.


Lemma append_empty_r (s : string) : s +:+ "" = s.
Proof.
  induction s as [|a s IH]; [reflexivity |].
  change (String a (s +:+ "") = String a s). now rewrite IH.
Qed.

Lemma contains_suffix pre sub : contains (pre +:+ sub) sub.
Proof. exists pre, "". now rewrite append_empty_r. Qed.

Section HealProperties.

Variable py_str : PyException -> string.
Variable py_repr : json -> string.

(** ** The handler of [POST /heal] *)


Lemma heal_pipeline_returns failure st :
  heal_pipeline py_str py_repr failure st =
    (inr (placeholder_verdict (stage failure)),
     (st ++ [mk_log INFO ("Received healing request for stage: " +:+ stage failure)])
        ++ [mk_log INFO ("Healing result: " +:+
              py_repr (HealingResult_model_dump (placeholder_verdict (stage failure))))]).
Proof. reflexivity. Qed.

Lemma post_heal_valid body failure st :
  PipelineFailure_validate body = inr failure ->
  fst (post_heal py_str py_repr body st) =
    mk_Response 200
      (JSONContent (HealingResult_model_dump (placeholder_verdict (stage failure)))).
Proof.
  intros Hv. unfold post_heal, post_endpoint. rewrite Hv, heal_pipeline_returns.
  reflexivity.
Qed.

Lemma post_heal_invalid body errs st :
  PipelineFailure_validate body = inl errs ->
  post_heal py_str py_repr body st = (request_validation_error_response errs, st).
Proof. intros Hv. unfold post_heal, post_endpoint. now rewrite Hv. Qed.




(** C10.  Two bodies that pass validation and carry the same [stage] get
    the same response, whatever their [error_message], [logs], [timestamp]
    and [metadata] are. *)
Theorem heal_response_depends_on_stage_only body1 body2 failure1 failure2 st1 st2 :
  PipelineFailure_validate body1 = inr failure1 ->
  PipelineFailure_validate body2 = inr failure2 ->
  body_field body1 "stage" = body_field body2 "stage" ->
  fst (post_heal py_str py_repr body1 st1) = fst (post_heal py_str py_repr body2 st2).
Proof.
  intros Hv1 Hv2 Hstage.
  destruct (validate_inr_fields _ _ Hv1) as (Hs1 & _).
  destruct (validate_inr_fields _ _ Hv2) as (Hs2 & _).
  rewrite Hs1, Hs2 in Hstage. injection Hstage as Hstage.
  rewrite (post_heal_valid _ _ _ Hv1), (post_heal_valid _ _ _ Hv2), Hstage.
  reflexivity.
Qed.


(** C6.  Whatever block stands inside the handler's [try]: when it raises an
    exception, the [except] clause logs it and the request is answered with
    status 500 and a [detail] made of the text of that exception after the
    words "Internal error: ". *)
Theorem heal_exception_becomes_500
    (try_block : PipelineFailure -> M HealingResult) body failure e st st' :
  PipelineFailure_validate body = inr failure ->
  try_block failure
    (st ++ [mk_log INFO ("Received healing request for stage: " +:+ stage failure)])
    = (inl e, st') ->
  exists obj detail,
    post_endpoint (heal_pipeline_with py_str py_repr try_block) body st =
      (mk_Response 500 (JSONContent (JObj obj)),
       st' ++ [mk_log ERROR ("Error during healing: " +:+ py_str e)]) /\
    obj !! "detail" = Some (JStr detail) /\
    detail = "Internal error: " +:+ py_str e /\
    contains detail (py_str e).
Proof.
  intros Hv Hraise.
  exists {["detail" := JStr ("Internal error: " +:+ py_str e)]},
    ("Internal error: " +:+ py_str e).
  split.
  - unfold post_endpoint, heal_pipeline_with. rewrite Hv.
    rewrite (bind_returns _ _ _ _ _ (logger_info_emits _ _)).
    rewrite (bind_returns _ _ _ _ _ (logger_debug_dropped _ _)).
    rewrite (try_except_raises _ _ _ _ _ Hraise).
    reflexivity.
  - split; [by simplify_map_eq |]. split; [reflexivity |].
    apply contains_suffix.
Qed.



(** ** The probes *)

(** C7.  [GET /health] always returns: status 200, [status] is "healthy",
    a [timestamp] is present (the clock reading); the handler reads nothing
    but the clock and leaves the log as it was. *)
Theorem health_always_healthy now st :
  exists obj,
    health_check now st = (inr (JObj obj), st) /\
    handle py_str py_repr now GET_health st =
      (mk_Response 200 (JSONContent (JObj obj)), st) /\
    obj !! "status" = Some (JStr "healthy") /\
    obj !! "timestamp" = Some (JStr (isoformat now)).
Proof.
  eexists. split; [reflexivity |]. split; [reflexivity |].
  split; by simplify_map_eq.
Qed.

(** C8.  [GET /metrics] returns status 200 and the same figures after any
    history of requests: [total_healings] 0, [success_rate] 0.0,
    [average_resolution_time] 0.0, and a [timestamp]. *)
Theorem metrics_static history now st :
  exists obj,
    handle py_str py_repr now GET_metrics (served py_str py_repr history st) =
      (mk_Response 200 (JSONContent (JObj obj)), served py_str py_repr history st) /\
    obj !! "total_healings" = Some (JInt 0) /\
    obj !! "success_rate" = Some (JFloat 0.0) /\
    obj !! "average_resolution_time" = Some (JFloat 0.0) /\
    obj !! "timestamp" = Some (JStr (isoformat now)).
Proof.
  eexists. split; [reflexivity |].
  repeat split; by simplify_map_eq.
Qed.

End HealProperties.

(** * The statements at concrete requests *)

Example isoformat_noon : isoformat noon = "2024-01-27T12:00:00".
Proof. reflexivity. Qed.

Example isoformat_microseconds :
  isoformat (mk_datetime 2024 1 27 12 0 5 1234) = "2024-01-27T12:00:05.001234".
Proof. reflexivity. Qed.

(** [{"stage": 123, ...}]: a number is not coerced to a string. *)
Example numeric_stage_rejected :
  PipelineFailure_validate
    (JObj (<["stage" := JInt 123]>
          (<["error_message" := JStr "Test failed"]>
          (<["logs" := JStr "Error logs"]>
          (<["timestamp" := JStr "2024-01-27T12:00:00Z"]> ∅))))) =
    inl [mk_error "string_type" ["body"; "stage"] "Input should be a valid string"
           (JInt 123)].
Proof. reflexivity. Qed.

Example incomplete_payload_errors :
  exists e1 e2,
    PipelineFailure_validate incomplete_payload = inl [e1; e2] /\
    (err_type e1, err_loc e1) = ("missing", ["body"; "logs"]) /\
    (err_type e2, err_loc e2) = ("missing", ["body"; "timestamp"]).
Proof. eexists _, _. repeat split. Qed.

Example heal_log_of_a_request :
  snd (post_heal sample_str sample_repr (sample_payload "test" "2024-01-27T12:00:00Z") []) =
    [mk_log INFO "Received healing request for stage: test";
     mk_log INFO "Healing result: {...}"].
Proof. reflexivity. Qed.

Example overconfident_try_raises :
  overconfident_try (sample_failure "deploy" "now") [] =
    (inl (ValidationError "HealingResult"
            [mk_error "less_than_equal" ["confidence"]
               "Input should be less than or equal to 1" (JFloat 1.5)]), []).
Proof. reflexivity. Qed.



Lemma heal_response_depends_on_stage_only_witness :
  PipelineFailure_validate (sample_payload "test" "2024-01-27T12:00:00Z") =
    inr (sample_failure "test" "2024-01-27T12:00:00Z") /\
  PipelineFailure_validate other_payload = inr other_failure /\
  fst (post_heal sample_str sample_repr (sample_payload "test" "2024-01-27T12:00:00Z") []) =
  fst (post_heal sample_str sample_repr other_payload [mk_log INFO "earlier"]).
Proof.
  split; [reflexivity |]. split; [reflexivity |].
  apply (heal_response_depends_on_stage_only sample_str sample_repr
           (sample_payload "test" "2024-01-27T12:00:00Z") other_payload
           (sample_failure "test" "2024-01-27T12:00:00Z") other_failure);
    reflexivity.
Defined.


Lemma heal_exception_becomes_500_witness :
  exists obj,
    fst (post_endpoint (heal_pipeline_with sample_str sample_repr overconfident_try)
           (sample_payload "deploy" "now") []) =
      mk_Response 500 (JSONContent (JObj obj)) /\
    obj !! "detail" = Some (JStr "Internal error: validation error for HealingResult").
Proof.
  destruct (heal_exception_becomes_500 sample_str sample_repr overconfident_try
              (sample_payload "deploy" "now") (sample_failure "deploy" "now")
              (ValidationError "HealingResult"
                 [mk_error "less_than_equal" ["confidence"]
                    "Input should be less than or equal to 1" (JFloat 1.5)])
              []
              [mk_log INFO "Received healing request for stage: deploy"]
              eq_refl eq_refl)
    as (obj & detail & Hresp & Hdetail & Htext & _).
  exists obj. split.
  - now rewrite Hresp.
  - now rewrite Hdetail, Htext.
Defined.




(** * Further properties of the request model *)

Lemma optional_dict_inr m key md :
  optional_dict m key = inr md <->
  match md with
  | Some d => m !! key = Some (JObj d)
  | None => m !! key = None \/ m !! key = Some JNull
  end.
Proof.
  unfold optional_dict.
  destruct (m !! key) as [[]|]; destruct md; split; intros H;
    try discriminate; try (injection H as <-); try reflexivity;
    try (destruct H as [H | H]; discriminate);
    try (injection H as ->; reflexivity);
    auto.
Qed.

Lemma validate_inr_spec body s e l t md :
  PipelineFailure_validate body = inr (mk_PipelineFailure s e l t md) <->
  body_field body "stage" = Some (JStr s) /\
  body_field body "error_message" = Some (JStr e) /\
  body_field body "logs" = Some (JStr l) /\
  body_field body "timestamp" = Some (JStr t) /\
  match md with
  | Some d => body_field body "metadata" = Some (JObj d)
  | None => body_field body "metadata" = None \/ body_field body "metadata" = Some JNull
  end.
Proof.
  split.
  - intros Hv.
    destruct (validate_inr_fields _ _ Hv) as (Hs & He & Hl & Ht & _).
    repeat (split; [assumption |]).
    destruct body as [| | | | | |m]; try discriminate.
    revert Hv. unfold PipelineFailure_validate.
    destruct (required_str m "stage"), (required_str m "error_message"),
      (required_str m "logs"), (required_str m "timestamp"),
      (optional_dict m "metadata") as [es | md'] eqn:Hmd; try discriminate.
    intros [= _ _ _ _ ->]. now apply optional_dict_inr.
  - intros (Hs & He & Hl & Ht & Hmd).
    destruct body as [| | | | | |m]; try discriminate.
    simpl in *. unfold PipelineFailure_validate.
    rewrite (required_str_accepts _ _ _ Hs), (required_str_accepts _ _ _ He),
      (required_str_accepts _ _ _ Hl), (required_str_accepts _ _ _ Ht).
    apply optional_dict_inr in Hmd. now rewrite Hmd.
Qed.

Lemma accepted_spec body :
  accepted body = true <-> exists p, PipelineFailure_validate body = inr p.
Proof.
  unfold accepted. simpl. rewrite !andb_true_iff. split.
  - intros (Hs & He & Hl & Ht & Hmd & _).
    destruct body as [| | | | | |m]; try discriminate. simpl in *.
    unfold is_JStr in Hs, He, Hl, Ht.
    destruct (m !! "stage") as [[]|] eqn:Ls; try discriminate.
    destruct (m !! "error_message") as [[]|] eqn:Le; try discriminate.
    destruct (m !! "logs") as [[]|] eqn:Ll; try discriminate.
    destruct (m !! "timestamp") as [[]|] eqn:Lt; try discriminate.
    destruct (validate_accepts m _ _ _ _ Ls Le Ll Lt Hmd) as [md Hv]. eauto.
  - intros [p Hv].
    destruct (validate_inr_fields _ _ Hv) as (Hs & He & Hl & Ht & Hmd).
    rewrite Hs, He, Hl, Ht, Hmd. repeat split.
Qed.

Lemma offences_nil body : offences body = [] <-> accepted body = true.
Proof.
  unfold offences, accepted. simpl.
  destruct (is_JStr (body_field body "stage")),
    (is_JStr (body_field body "error_message")),
    (is_JStr (body_field body "logs")),
    (is_JStr (body_field body "timestamp")),
    (is_optional_dict (body_field body "metadata")); simpl;
    split; intros H; try reflexivity; discriminate.
Qed.

Lemma required_str_errors m key :
  map (fun e => (err_type e, err_loc e)) (errors_of (required_str m key)) =
    if is_JStr (m !! key) then []
    else [(match m !! key with None => "missing" | Some _ => "string_type" end,
           ["body"; key])].
Proof. unfold required_str. destruct (m !! key) as [[]|]; reflexivity. Qed.

Lemma optional_dict_errors m key :
  map (fun e => (err_type e, err_loc e)) (errors_of (optional_dict m key)) =
    if is_optional_dict (m !! key) then []
    else [(match m !! key with None => "missing" | Some _ => "dict_type" end,
           ["body"; key])].
Proof. unfold optional_dict. destruct (m !! key) as [[]|]; reflexivity. Qed.

Lemma validate_inl_errors m errs :
  PipelineFailure_validate (JObj m) = inl errs ->
  errs = errors_of (required_str m "stage") ++ errors_of (required_str m "error_message")
         ++ errors_of (required_str m "logs") ++ errors_of (required_str m "timestamp")
         ++ errors_of (optional_dict m "metadata").
Proof.
  unfold PipelineFailure_validate.
  destruct (required_str m "stage"), (required_str m "error_message"),
    (required_str m "logs"), (required_str m "timestamp"),
    (optional_dict m "metadata"); intros H; try discriminate;
    injection H as <-; reflexivity.
Qed.

Lemma validate_inl_offences m errs :
  PipelineFailure_validate (JObj m) = inl errs ->
  map (fun e => (err_type e, err_loc e)) errs = offences (JObj m).
Proof.
  intros Hv. rewrite (validate_inl_errors _ _ Hv).
  rewrite !map_app, !required_str_errors, optional_dict_errors.
  unfold offences. simpl. now rewrite app_nil_r.
Qed.

Lemma validate_inl_nonempty body errs :
  PipelineFailure_validate body = inl errs -> errs <> [].
Proof.
  intros Hv Hnil. subst errs.
  destruct body as [| | | | | |m]; try discriminate.
  pose proof (validate_inl_offences _ _ Hv) as Hoff. simpl in Hoff.
  symmetry in Hoff. apply offences_nil, accepted_spec in Hoff as [p Hp].
  congruence.
Qed.

(** X1.  Dumping a validated failure report and validating the dump gives
    the report back. *)
Theorem PipelineFailure_dump_validate_roundtrip p :
  PipelineFailure_validate (PipelineFailure_model_dump p) = inr p.
Proof.
  destruct p as [s e l t md]. apply validate_inr_spec. simpl.
  repeat (split; [by simplify_map_eq |]).
  destruct md; simpl; [| right]; by simplify_map_eq.
Qed.

(** X2.  What validation accepts and what it returns: the result is the
    report [(s, e, l, t, md)] exactly when the body carries the strings [s],
    [e], [l], [t] under the four required keys and its [metadata] is the
    object [md], or is absent or null when [md] is [None]. *)
Theorem validate_returns_exactly_the_fields body s e l t md :
  PipelineFailure_validate body = inr (mk_PipelineFailure s e l t md) <->
  body_field body "stage" = Some (JStr s) /\
  body_field body "error_message" = Some (JStr e) /\
  body_field body "logs" = Some (JStr l) /\
  body_field body "timestamp" = Some (JStr t) /\
  match md with
  | Some d => body_field body "metadata" = Some (JObj d)
  | None => body_field body "metadata" = None \/ body_field body "metadata" = Some JNull
  end.
Proof. apply validate_inr_spec. Qed.

(** X3.  A key the model does not declare is ignored: adding it to, or
    removing it from, an accepted body leaves the validated report as it
    was. *)
Theorem validate_ignores_undeclared_keys m k v p :
  ~ In k declared_keys ->
  PipelineFailure_validate (JObj m) = inr p ->
  PipelineFailure_validate (JObj (<[k := v]> m)) = inr p /\
  PipelineFailure_validate (JObj (delete k m)) = inr p.
Proof.
  intros Hk Hv. destruct p as [s e l t md].
  assert (Hne : forall key, In key declared_keys -> k <> key).
  { intros key Hin ->. exact (Hk Hin). }
  apply validate_inr_spec in Hv. simpl in Hv.
  destruct Hv as (Hs & He & Hl & Ht & Hmd).
  split; apply validate_inr_spec; simpl.
  - rewrite !lookup_insert_ne by (apply Hne; simpl; auto 10).
    auto.
  - rewrite !lookup_delete_ne by (apply Hne; simpl; auto 10).
    auto.
Qed.

(** X4.  The error list of a rejected object names every declared field
    that is not in order, once and in declaration order, with the error
    type [missing] for an absent required field, [string_type] for a
    required field that is not a string and [dict_type] for a [metadata]
    that is not an object; the list is not empty. *)
Theorem validation_errors_name_the_fields m errs :
  PipelineFailure_validate (JObj m) = inl errs ->
  map (fun e => (err_type e, err_loc e)) errs = offences (JObj m) /\
  errs <> [].
Proof.
  intros Hv. split; [now apply validate_inl_offences |].
  now apply (validate_inl_nonempty (JObj m)).
Qed.


(** * Further properties of the application *)

Section ApplicationProperties.

Variable py_str : PyException -> string.
Variable py_repr : json -> string.

Lemma post_heal_valid_log body failure st :
  PipelineFailure_validate body = inr failure ->
  snd (post_heal py_str py_repr body st) = st ++ heal_records py_repr (stage failure).
Proof.
  intros Hv. unfold post_heal, post_endpoint.
  rewrite Hv, heal_pipeline_returns. simpl. now rewrite <- app_assoc.
Qed.

Lemma post_heal_rejected body st :
  accepted body = false ->
  exists errs,
    errs <> [] /\
    post_heal py_str py_repr body st = (request_validation_error_response errs, st).
Proof.
  intros Hacc.
  destruct (PipelineFailure_validate body) as [errs | p] eqn:Hv.
  - exists errs. split; [now apply (validate_inl_nonempty body) |].
    now apply post_heal_invalid.
  - assert (accepted body = true) by (apply accepted_spec; eauto). congruence.
Qed.

Lemma handle_appends now req st :
  exists new,
    snd (handle py_str py_repr now req st) = st ++ new /\
    length new = (if is_accepted_heal req then 2 else 0) /\
    Forall (fun r => levelno r = INFO) new.
Proof.
  destruct req as [| | |body]; simpl;
    try (exists []; rewrite app_nil_r; repeat split; constructor).
  destruct (accepted body) eqn:Hacc.
  - apply accepted_spec in Hacc as [p Hv].
    exists (heal_records py_repr (stage p)).
    split; [now apply post_heal_valid_log |].
    split; [reflexivity | repeat constructor].
  - destruct (post_heal_rejected body st Hacc) as (errs & _ & Hresp).
    exists []. rewrite Hresp, app_nil_r. repeat split; constructor.
Qed.

Lemma served_appends history st :
  exists new,
    served py_str py_repr history st = st ++ new /\
    length new = 2 * accepted_heals history /\
    Forall (fun r => levelno r = INFO) new.
Proof.
  revert st. induction history as [|[now req] rest IH]; intros st.
  - exists []. rewrite app_nil_r. repeat split; constructor.
  - simpl served.
    destruct (handle_appends now req st) as (new1 & Hst1 & Hlen1 & Hall1).
    destruct (IH (snd (handle py_str py_repr now req st))) as (new2 & Hst2 & Hlen2 & Hall2).
    exists (new1 ++ new2). rewrite Hst2, Hst1, <- app_assoc.
    split; [reflexivity |]. split.
    + rewrite length_app, Hlen1, Hlen2. unfold accepted_heals. simpl.
      destruct (is_accepted_heal req); simpl; lia.
    + apply Forall_app. now split.
Qed.


(** X6.  The log only grows, and by INFO records only: after any history
    of requests it is the earlier log followed by two records for every
    [POST /heal] with an accepted body, and nothing for any other
    request. *)
Theorem served_log_accounting history st :
  exists new,
    served py_str py_repr history st = st ++ new /\
    length new = 2 * accepted_heals history /\
    Forall (fun r => levelno r = INFO) new.
Proof. apply served_appends. Qed.

(** X7.  What an accepted [POST /heal] writes to the log is fixed by the
    [stage] alone: the record of the request and the record of the result;
    [error_message], [logs], [timestamp] and [metadata] leave no trace at the
    configured level. *)
Theorem heal_log_depends_on_stage_only body1 body2 failure1 failure2 st :
  PipelineFailure_validate body1 = inr failure1 ->
  PipelineFailure_validate body2 = inr failure2 ->
  body_field body1 "stage" = body_field body2 "stage" ->
  snd (post_heal py_str py_repr body1 st) = st ++ heal_records py_repr (stage failure1) /\
  snd (post_heal py_str py_repr body2 st) = snd (post_heal py_str py_repr body1 st).
Proof.
  intros Hv1 Hv2 Hstage.
  destruct (validate_inr_fields _ _ Hv1) as (Hs1 & _).
  destruct (validate_inr_fields _ _ Hv2) as (Hs2 & _).
  rewrite Hs1, Hs2 in Hstage. injection Hstage as Hstage.
  rewrite (post_heal_valid_log _ _ _ Hv1), (post_heal_valid_log _ _ _ Hv2), Hstage.
  split; reflexivity.
Qed.

(** X8.  [GET /] after any history: status 200, the service name, the
    status "operational", the version "1.0.0" and the clock reading as
    [timestamp]; the log is left as it was. *)
Theorem root_service_descriptor history now st :
  exists obj,
    handle py_str py_repr now GET_root (served py_str py_repr history st) =
      (mk_Response 200 (JSONContent (JObj obj)), served py_str py_repr history st) /\
    obj !! "service" = Some (JStr "AI Healing Pipeline Agent") /\
    obj !! "status" = Some (JStr "operational") /\
    obj !! "version" = Some (JStr "1.0.0") /\
    obj !! "timestamp" = Some (JStr (isoformat now)) /\
    dom obj = ({["service"; "status"; "version"; "timestamp"]} : gset string).
Proof.
  eexists. split; [reflexivity |].
  repeat split; by simplify_map_eq.
Qed.

(** X9.  One life of the application: the startup event writes its two
    records, every accepted [POST /heal] two more, the shutdown event the
    last one; all at level INFO, and neither event raises. *)
Theorem application_log_shape history st :
  fst (startup_event st) = inr tt /\
  fst (shutdown_event st) = inr tt /\
  exists served_records,
    application_log py_str py_repr history st =
      st ++ [mk_log INFO "ðŸš€ AI Healing Agent starting up..."; mk_log INFO "API documentation available at /docs"]
         ++ served_records ++ [mk_log INFO "ðŸ‘‹ AI Healing Agent shutting down..."] /\
    length served_records = 2 * accepted_heals history /\
    Forall (fun r => levelno r = INFO) served_records.
Proof.
  split; [reflexivity |]. split; [reflexivity |].
  unfold application_log.
  destruct (served_appends history (snd (startup_event st))) as (new & Hst & Hlen & Hall).
  exists new. rewrite Hst. split; [| now split].
  simpl. rewrite <- !app_assoc. reflexivity.
Qed.

End ApplicationProperties.

(** * Further properties of timestamps, verdicts and the handler's frame *)

Lemma string_length_app (s1 s2 : string) :
  String.length (s1 +:+ s2) = String.length s1 + String.length s2.
Proof.
  induction s1 as [|a s1 IH]; [reflexivity |].
  change (S (String.length (s1 +:+ s2)) = S (String.length s1 + String.length s2)).
  now rewrite IH.
Qed.

Lemma zero_padded_length width n acc :
  String.length (zero_padded width n acc) = width + String.length acc.
Proof.
  revert n acc. induction width as [|w IH]; intros n acc; [reflexivity |].
  simpl zero_padded. rewrite IH. simpl. lia.
Qed.


Lemma option_to_json_JStr_inj (o1 o2 : option string) :
  option_to_json JStr o1 = option_to_json JStr o2 -> o1 = o2.
Proof. destruct o1, o2; simpl; intros H; congruence. Qed.

Lemma HealingResult_model_dump_injective r1 r2 :
  HealingResult_model_dump r1 = HealingResult_model_dump r2 -> r1 = r2.
Proof.
  intros H.
  destruct (HealingResult_model_dump_fields r1) as (o1 & E1 & S1 & F1 & C1 & I1 & M1).
  destruct (HealingResult_model_dump_fields r2) as (o2 & E2 & S2 & F2 & C2 & I2 & M2).
  rewrite E1, E2 in H. injection H as ->.
  rewrite S1 in S2. rewrite F1 in F2. rewrite C1 in C2. rewrite I1 in I2. rewrite M1 in M2.
  destruct r1, r2. simpl in *.
  injection S2 as ->. injection F2 as F2. apply option_to_json_JStr_inj in F2 as ->.
  injection C2 as ->. injection I2 as ->. injection M2 as ->.
  reflexivity.
Qed.

(** X10.  The timestamp of a response is 19 characters long, or 26 when
    the clock reads a microsecond other than zero; date and time are
    separated by [T], the date fields by [-], the time fields by [:], and
    the microseconds follow a dot. *)
Theorem isoformat_layout d :
  String.length (isoformat d) = (if Nat.eqb (microsecond d) 0 then 19 else 26) /\
  String.get 4 (isoformat d) = Some "-"%char /\
  String.get 7 (isoformat d) = Some "-"%char /\
  String.get 10 (isoformat d) = Some "T"%char /\
  String.get 13 (isoformat d) = Some ":"%char /\
  String.get 16 (isoformat d) = Some ":"%char /\
  String.get 19 (isoformat d) =
    (if Nat.eqb (microsecond d) 0 then None else Some "."%char).
Proof.
  split.
  - unfold isoformat. rewrite !string_length_app, !zero_padded_length.
    destruct (Nat.eqb (microsecond d) 0).
    + reflexivity.
    + rewrite string_length_app, zero_padded_length. reflexivity.
  - repeat split; try reflexivity.
    unfold isoformat. destruct (Nat.eqb (microsecond d) 0); reflexivity.
Qed.


Section FrameProperties.

Variable py_str : PyException -> string.
Variable py_repr : json -> string.


(** X13.  The JSON body of a verdict loses nothing: two verdicts with the
    same dump are the same verdict. *)
Theorem HealingResult_model_dump_inj r1 r2 :
  HealingResult_model_dump r1 = HealingResult_model_dump r2 -> r1 = r2.
Proof. apply HealingResult_model_dump_injective. Qed.


End FrameProperties.

(** * The further statements at concrete requests *)

Example annotated_payload_accepted :
  accepted annotated_payload = true /\ offences annotated_payload = [].
Proof. split; reflexivity. Qed.

Example offences_of_a_mixed_body :
  offences (JObj (<["stage" := JInt 123]>
                 (<["logs" := JStr "trace"]>
                 (<["metadata" := JArr []]> ∅)))) =
    [("string_type", ["body"; "stage"]);
     ("missing", ["body"; "error_message"]);
     ("missing", ["body"; "timestamp"]);
     ("dict_type", ["body"; "metadata"])].
Proof. reflexivity. Qed.

Lemma validate_returns_exactly_the_fields_witness :
  body_field other_payload "stage" = Some (JStr "test") /\
  body_field other_payload "error_message" = Some (JStr "npm ERR! code ERESOLVE") /\
  body_field other_payload "logs" = Some (JStr "") /\
  body_field other_payload "timestamp" = Some (JStr "yesterday") /\
  body_field other_payload "metadata" = Some (JObj {["branch" := JStr "main"]}).
Proof.
  apply (proj1 (validate_returns_exactly_the_fields other_payload
                  "test" "npm ERR! code ERESOLVE" "" "yesterday"
                  (Some {["branch" := JStr "main"]}))).
  reflexivity.
Defined.

Lemma validate_ignores_undeclared_keys_witness :
  PipelineFailure_validate annotated_payload =
    inr (sample_failure "test" "2024-01-27T12:00:00Z") /\
  PipelineFailure_validate
    (JObj (delete "pipeline_id"
             (<["stage" := JStr "test"]>
             (<["error_message" := JStr "AssertionError"]>
             (<["logs" := JStr "trace"]>
             (<["timestamp" := JStr "2024-01-27T12:00:00Z"]> ∅)))))) =
    inr (sample_failure "test" "2024-01-27T12:00:00Z").
Proof.
  apply (validate_ignores_undeclared_keys
           (<["stage" := JStr "test"]>
           (<["error_message" := JStr "AssertionError"]>
           (<["logs" := JStr "trace"]>
           (<["timestamp" := JStr "2024-01-27T12:00:00Z"]> ∅))))
           "pipeline_id" (JInt 7) (sample_failure "test" "2024-01-27T12:00:00Z")).
  - simpl. intuition discriminate.
  - reflexivity.
Defined.

Lemma validation_errors_name_the_fields_witness :
  exists errs,
    PipelineFailure_validate incomplete_payload = inl errs /\
    map (fun e => (err_type e, err_loc e)) errs =
      [("missing", ["body"; "logs"]); ("missing", ["body"; "timestamp"])] /\
    errs <> [].
Proof.
  exists [mk_error "missing" ["body"; "logs"] "Field required" incomplete_payload;
          mk_error "missing" ["body"; "timestamp"] "Field required" incomplete_payload].
  split; [reflexivity |].
  assert (Hoff : offences incomplete_payload =
                 [("missing", ["body"; "logs"]); ("missing", ["body"; "timestamp"])])
    by reflexivity.
  rewrite <- Hoff.
  apply (validation_errors_name_the_fields
           (<["stage" := JStr "test"]> (<["error_message" := JStr "x"]> ∅))).
  reflexivity.
Defined.

Lemma heal_log_depends_on_stage_only_witness :
  snd (post_heal sample_str sample_repr (sample_payload "test" "2024-01-27T12:00:00Z") []) =
    [] ++ heal_records sample_repr "test" /\
  snd (post_heal sample_str sample_repr other_payload []) =
  snd (post_heal sample_str sample_repr (sample_payload "test" "2024-01-27T12:00:00Z") []).
Proof.
  apply (heal_log_depends_on_stage_only sample_str sample_repr
           (sample_payload "test" "2024-01-27T12:00:00Z") other_payload
           (sample_failure "test" "2024-01-27T12:00:00Z") other_failure []);
    reflexivity.
Defined.


Lemma HealingResult_model_dump_inj_witness :
  placeholder_verdict "test" =
  mk_HealingResult true (Some "Placeholder - Week 2 will implement AI agent") 0.95 1
    "Acknowledged failure in test. Ready for AI implementation.".
Proof.
  apply (HealingResult_model_dump_inj (placeholder_verdict "test")
           (mk_HealingResult true (Some "Placeholder - Week 2 will implement AI agent")
              0.95 1 "Acknowledged failure in test. Ready for AI implementation.")).
  reflexivity.
Defined.


